(** * quick_deploy.py: deploy-then-verify control flow

    A shallow embedding of [src/quick_deploy.py].  The script reads one
    environment variable and one file, PUTs a payload to an ordered list
    of endpoints, and, when no endpoint accepts it, GETs a health URL and
    prints two diagnostics.

    Everything the script observes from outside (environment, file
    system, HTTP servers) is gathered in a [World]; everything it does to
    the outside (lines printed, HTTP requests sent) is recorded, in
    order, in a trace of [Event]s.  A Python computation is a function
    from the world to the trace it leaves and either the exception it
    raised or the value it returned.

    What the model takes for granted:
    - an exception is an instance of [Exception], the class both
      handlers of the script name; [requests], [json], [open] and
      [os.environ] raise nothing else.  [KeyboardInterrupt] and
      [SystemExit] reach a process from outside, at any point, and are
      not answers of a call;
    - [print] succeeds: standard output takes every line;
    - text is a string of bytes, and [str.lower] and [repr] act on its
      ASCII characters. *)

From Stdlib Require Import String Ascii ZArith List Bool Lia DecimalString.
Import ListNotations.

#[local] Set Warnings "-register-all".
#[local] Open Scope string_scope.
#[local] Open Scope Z_scope.

(** ** Python text

    A Python [str] is modelled as a Rocq [string]: the UTF-8 bytes of the
    text.  [str.lower] and [repr] are modelled on ASCII; bytes above 127
    are left as they are. *)

Module PyText.

(** The double-quote character (code 34). *)
Definition dquote : ascii := ascii_of_nat 34.
Definition squote : ascii := "'"%char.
Definition backslash : ascii := "\"%char.

(** [sub in s] on strings: [sub] occurs in [s] at some offset. *)
Fixpoint py_in (sub s : string) : bool :=
  String.prefix sub s ||
  match s with
  | EmptyString => false
  | String _ s' => py_in sub s'
  end.

(** [c.lower()] for one ASCII character. *)
Definition lower_ascii (c : ascii) : ascii :=
  let n := nat_of_ascii c in
  if (65 <=? n)%nat && (n <=? 90)%nat then ascii_of_nat (n + 32) else c.

(** [s.lower()]. *)
Fixpoint lower (s : string) : string :=
  match s with
  | EmptyString => EmptyString
  | String c s' => String (lower_ascii c) (lower s')
  end.

(** [str(n)] for an [int]. *)
Definition str_int (n : Z) : string := NilZero.string_of_int (Z.to_int n).

(** [str(b)] for a [bool]. *)
Definition str_bool (b : bool) : string := if b then "True" else "False".

Definition hex_digit (n : nat) : ascii :=
  if (n <? 10)%nat then ascii_of_nat (48 + n) else ascii_of_nat (87 + n).

(** One character of [repr(s)], inside quotes of kind [q]. *)
Definition repr_char (q c : ascii) : string :=
  let n := nat_of_ascii c in
  if Ascii.eqb c backslash then String backslash (String backslash EmptyString)
  else if Ascii.eqb c q then String backslash (String q EmptyString)
  else if (n =? 9)%nat then "\t"
  else if (n =? 10)%nat then "\n"
  else if (n =? 13)%nat then "\r"
  else if (n <? 32)%nat || (n =? 127)%nat then
    String backslash (String "x" (String (hex_digit (n / 16))
      (String (hex_digit (n mod 16)) EmptyString)))
  else String c EmptyString.

Fixpoint repr_chars (q : ascii) (s : string) : string :=
  match s with
  | EmptyString => EmptyString
  | String c s' => repr_char q c ++ repr_chars q s'
  end.

(** [repr(s)] for a [str]: single quotes, unless the text holds a
    single quote and no double quote. *)
Definition repr_str (s : string) : string :=
  let q :=
    if py_in (String squote EmptyString) s
       && negb (py_in (String dquote EmptyString) s)
    then dquote else squote in
  String q (repr_chars q s ++ String q EmptyString).

End PyText.

(** ** Python values

    The values [json.loads] builds, which are also the values the script
    hands to [requests] as [json=].  A [float] is kept as the text Python
    prints for it.  A [dict] is the list of its items in insertion order;
    its keys are pairwise distinct, so the first match is the match. *)

Inductive pyvalue : Type :=
| PyNone
| PyBool (b : bool)
| PyInt (n : Z)
| PyFloat (text : string)
| PyStr (s : string)
| PyList (items : list pyvalue)
| PyDict (items : list (string * pyvalue)).

(** An instance of Python's [Exception], which is what
    [except Exception as e] catches: the name of its class and
    [str(e)]. *)
Inductive PyExc : Type :=
| Exception_ (class : string) (message : string).

Definition exc_str (e : PyExc) : string :=
  match e with Exception_ _ m => m end.

Module PyValue.
Import PyText.

(** [type(v).__name__]. *)
Definition type_name (v : pyvalue) : string :=
  match v with
  | PyNone => "NoneType"
  | PyBool _ => "bool"
  | PyInt _ => "int"
  | PyFloat _ => "float"
  | PyStr _ => "str"
  | PyList _ => "list"
  | PyDict _ => "dict"
  end.

(** [repr(v)]. *)
Fixpoint py_repr (v : pyvalue) : string :=
  match v with
  | PyNone => "None"
  | PyBool b => str_bool b
  | PyInt n => str_int n
  | PyFloat text => text
  | PyStr s => repr_str s
  | PyList items => "[" ++ String.concat ", " (map py_repr items) ++ "]"
  | PyDict items =>
      "{" ++ String.concat ", "
               (map (fun kv => let '(k, x) := kv in
                               repr_str k ++ ": " ++ py_repr x) items)
          ++ "}"
  end.

(** [str(v)]. *)
Definition py_str (v : pyvalue) : string :=
  match v with
  | PyStr s => s
  | _ => py_repr v
  end.

(** Lookup of a key among the items of a [dict]. *)
Fixpoint dict_lookup (items : list (string * pyvalue)) (key : string)
  : option pyvalue :=
  match items with
  | [] => None
  | (k, x) :: rest => if String.eqb k key then Some x else dict_lookup rest key
  end.

(** [v.get(key, default)]: only a [dict] has the attribute [get]. *)
Definition py_get (v : pyvalue) (key : string) (default : pyvalue)
  : PyExc + pyvalue :=
  match v with
  | PyDict items =>
      inr (match dict_lookup items key with
           | Some x => x
           | None => default
           end)
  | _ => inl (Exception_ "AttributeError"
                ("'" ++ type_name v ++ "' object has no attribute 'get'"))
  end.

(** The characters of a [str], each as a [str] of length one. *)
Fixpoint chars (s : string) : list pyvalue :=
  match s with
  | EmptyString => []
  | String c s' => PyStr (String c EmptyString) :: chars s'
  end.

(** What [for f in v] runs through: the items of a [list], the
    characters of a [str], the keys of a [dict]; the other values are
    not iterable. *)
Definition py_iter (v : pyvalue) : PyExc + list pyvalue :=
  match v with
  | PyList items => inr items
  | PyStr s => inr (chars s)
  | PyDict items => inr (map (fun kv => PyStr (fst kv)) items)
  | _ => inl (Exception_ "TypeError"
                ("'" ++ type_name v ++ "' object is not iterable"))
  end.

End PyValue.

(** ** The outside world *)

(** An HTTP response as the script reads it: [status_code], [text], and
    what [json()] gives, a parsed value or an exception. *)
Record Response : Type := {
  status_code : Z;
  text : string;
  json : PyExc + pyvalue
}.

(** The arguments of one [requests.put] call. *)
Record PutRequest : Type := {
  put_url : string;
  put_json : pyvalue;
  put_headers : list (string * string);
  put_timeout : Z
}.

(** A world answers each call with an exception or a result.  The script
    sends at most one request to each URL in a run, so an answer that
    depends on the request alone loses no behaviour. *)
Record World : Type := {
  environ : string -> option string;
  read_text : string -> PyExc + string;
  http_put : PutRequest -> PyExc + Response;
  http_get : string -> PyExc + Response
}.

(** What a run does to the outside, in order. *)
Inductive Event : Type :=
| EvPrint (line : string)
| EvPut (req : PutRequest)
| EvGet (url : string).

(** ** Python computations *)

Definition Py (A : Type) : Type := World -> list Event * (PyExc + A).

Definition ret {A} (a : A) : Py A := fun _ => ([], inr a).

Definition raise {A} (e : PyExc) : Py A := fun _ => ([], inl e).

Definition bind {A B} (m : Py A) (k : A -> Py B) : Py B :=
  fun w =>
    match m w with
    | (t1, inl e) => (t1, inl e)
    | (t1, inr a) => let (t2, r) := k a w in ((t1 ++ t2)%list, r)
    end.

(** [try: m  except Exception as e: h e]. *)
Definition try_except {A} (m : Py A) (h : PyExc -> Py A) : Py A :=
  fun w =>
    match m w with
    | (t1, inl e) => let (t2, r) := h e w in ((t1 ++ t2)%list, r)
    | (t1, inr a) => (t1, inr a)
    end.

(** A call that raises or returns without an effect of its own. *)
Definition lift {A} (r : PyExc + A) : Py A := fun _ => ([], r).

Declare Scope py_scope.
Delimit Scope py_scope with py.
Notation "x <- m ;; k" := (bind m (fun x => k))
  (at level 61, m at next level, right associativity) : py_scope.
Notation "m ;; k" := (bind m (fun _ => k))
  (at level 61, right associativity) : py_scope.
#[local] Open Scope py_scope.

(** [print(line)]. *)
Definition print (line : string) : Py unit :=
  fun _ => ([EvPrint line], inr tt).

(** [os.environ[name]]. *)
Definition os_environ (name : string) : Py string :=
  fun w =>
    match environ w name with
    | Some v => ([], inr v)
    | None => ([], inl (Exception_ "KeyError" (PyText.repr_str name)))
    end.

(** [with open(path, 'r') as f: f.read()]. *)
Definition open_read (path : string) : Py string :=
  fun w => ([], read_text w path).

(** [requests.put(url, json=payload, headers=headers, timeout=timeout)]. *)
Definition requests_put (url : string) (payload : pyvalue)
  (headers : list (string * string)) (timeout : Z) : Py Response :=
  fun w =>
    let req := {| put_url := url; put_json := payload;
                  put_headers := headers; put_timeout := timeout |} in
    ([EvPut req], http_put w req).

(** [requests.get(url)]. *)
Definition requests_get (url : string) : Py Response :=
  fun w => ([EvGet url], http_get w url).

(** ** The script *)

Definition project_id : string := "gnqqktmslswgjtvxfvdo".
Definition credential_name : string := "SUPABASE_SERVICE_ROLE_KEY".
Definition artifact_path : string :=
  "supabase/functions/twilio-voice-stream/index.ts".

Definition payload (function_code : string) : pyvalue :=
  PyDict [ ("slug", PyStr "twilio-voice-stream");
           ("body", PyStr function_code);
           ("verify_jwt", PyBool false) ].

Definition headers (service_key : string) : list (string * string) :=
  [ ("Authorization", "Bearer " ++ service_key);
    ("Content-Type", "application/json") ].

Definition endpoints : list string :=
  [ "https://api.supabase.com/v1/projects/" ++ project_id
      ++ "/functions/twilio-voice-stream";
    "https://api.supabase.io/v1/projects/" ++ project_id
      ++ "/functions/twilio-voice-stream" ].

(** The body of the [for] loop for one endpoint.  [Some b] is
    [return b] out of the function; [None] falls through to the next
    iteration. *)
Definition attempt (payload : pyvalue) (headers : list (string * string))
  (endpoint : string) : Py (option bool) :=
  print ("Trying " ++ endpoint ++ "...") ;;
  try_except
    (response <- requests_put endpoint payload headers 30 ;;
     print ("Status: " ++ PyText.str_int (status_code response)) ;;
     print ("Response: " ++ text response) ;;
     if status_code response <? 400 then
       print "✅ Deployment successful!" ;;
       ret (Some true)
     else ret None)
    (fun e =>
       print ("❌ Error: " ++ exc_str e) ;;
       ret None).

(** [for endpoint in endpoints: ...] followed by [return False]. *)
Fixpoint try_endpoints (payload : pyvalue) (headers : list (string * string))
  (endpoints : list string) : Py bool :=
  match endpoints with
  | [] => ret false
  | endpoint :: rest =>
      r <- attempt payload headers endpoint ;;
      match r with
      | Some b => ret b
      | None => try_endpoints payload headers rest
      end
  end.

Definition deploy_function : Py bool :=
  service_key <- os_environ credential_name ;;
  function_code <- open_read artifact_path ;;
  try_endpoints (payload function_code) (headers service_key) endpoints.

Definition health_url : string :=
  "https://gnqqktmslswgjtvxfvdo.supabase.co/functions/v1/twilio-voice-stream?health=1".

(** [any('tenant' in str(f).lower() or 'fallback' in str(f).lower()
         for f in features)] once [features] is run through. *)
Definition mentions_tenant_fallback (f : pyvalue) : bool :=
  PyText.py_in "tenant" (PyText.lower (PyValue.py_str f))
  || PyText.py_in "fallback" (PyText.lower (PyValue.py_str f)).

Definition has_fallback (features : list pyvalue) : bool :=
  existsb mentions_tenant_fallback features.

(** Lines 61 and 62: [features = health.get('features', [])] and the
    [any] over it. *)
Definition tenant_fallback_diagnostic (health : pyvalue) : PyExc + bool :=
  match PyValue.py_get health "features" (PyList []) with
  | inl e => inl e
  | inr features =>
      match PyValue.py_iter features with
      | inl e => inl e
      | inr fs => inr (has_fallback fs)
      end
  end.

(** The [try] block of the fallback health check. *)
Definition health_check : Py unit :=
  try_except
    (resp <- requests_get health_url ;;
     health <- lift (json resp) ;;
     version <- lift (PyValue.py_get health "version" (PyStr "unknown")) ;;
     print ("Current version: " ++ PyValue.py_str version) ;;
     has <- lift (tenant_fallback_diagnostic health) ;;
     print ("Has tenant fallback logic: " ++ PyText.str_bool has))
    (fun e => print ("Health check failed: " ++ exc_str e)).

(** The [if __name__ == "__main__":] block. *)
Definition main : Py unit :=
  success <- deploy_function ;;
  if negb success then
    print "❌ All deployment attempts failed" ;;
    print (String (ascii_of_nat 10) "🔍 Testing current deployed function...") ;;
    health_check
  else ret tt.

(** The PUT requests, the GET URLs and the printed lines of a trace. *)
Fixpoint puts_of (tr : list Event) : list PutRequest :=
  match tr with
  | [] => []
  | EvPut req :: tr' => req :: puts_of tr'
  | _ :: tr' => puts_of tr'
  end.

Fixpoint gets_of (tr : list Event) : list string :=
  match tr with
  | [] => []
  | EvGet url :: tr' => url :: gets_of tr'
  | _ :: tr' => gets_of tr'
  end.

Fixpoint prints_of (tr : list Event) : list string :=
  match tr with
  | [] => []
  | EvPrint line :: tr' => line :: prints_of tr'
  | _ :: tr' => prints_of tr'
  end.

(** ** Vocabulary of the statements *)

(** The request the loop sends to [endpoint] with payload [p] and headers
    [h]; in a run whose credential is [service_key] and whose artifact
    text is [function_code], that is [request_to]. *)
Definition put_request (p : pyvalue) (h : list (string * string))
  (endpoint : string) : PutRequest :=
  {| put_url := endpoint; put_json := p; put_headers := h;
     put_timeout := 30 |}.

Definition request_to (service_key function_code endpoint : string)
  : PutRequest :=
  put_request (payload function_code) (headers service_key) endpoint.

(** The world answers [req] with a response whose status is below 400. *)
Definition accepted (w : World) (req : PutRequest) : Prop :=
  exists resp, http_put w req = inr resp /\ status_code resp < 400.

(** The attempt fails: a response with status 400 or more, or an
    exception. *)
Definition failed (w : World) (req : PutRequest) : Prop :=
  (exists resp, http_put w req = inr resp /\ 400 <= status_code resp)
  \/ (exists e, http_put w req = inl e).

(** [sub] occurs in [s]. *)
Definition occurs (sub s : string) : Prop :=
  exists pre post, s = pre ++ sub ++ post.

(** The events of one iteration of the loop, by the answer to its PUT. *)
Definition attempt_events (w : World) (req : PutRequest) : list Event :=
  EvPrint ("Trying " ++ put_url req ++ "...") :: EvPut req ::
  match http_put w req with
  | inl e => [EvPrint ("❌ Error: " ++ exc_str e)]
  | inr resp =>
      EvPrint ("Status: " ++ PyText.str_int (status_code resp)) ::
      EvPrint ("Response: " ++ text resp) ::
      (if status_code resp <? 400
       then [EvPrint "✅ Deployment successful!"] else [])
  end.

(** The events of the health check, by what the world answers. *)
Definition health_events (w : World) : list Event :=
  EvGet health_url ::
  match http_get w health_url with
  | inl e => [EvPrint ("Health check failed: " ++ exc_str e)]
  | inr resp =>
      match json resp with
      | inl e => [EvPrint ("Health check failed: " ++ exc_str e)]
      | inr health =>
          match PyValue.py_get health "version" (PyStr "unknown") with
          | inl e => [EvPrint ("Health check failed: " ++ exc_str e)]
          | inr version =>
              EvPrint ("Current version: " ++ PyValue.py_str version) ::
              match tenant_fallback_diagnostic health with
              | inl e => [EvPrint ("Health check failed: " ++ exc_str e)]
              | inr has =>
                  [EvPrint ("Has tenant fallback logic: "
                            ++ PyText.str_bool has)]
              end
          end
      end
  end.

(** The two lines printed between the deploy phase and the health
    check. *)
Definition fallback_banner : list Event :=
  [ EvPrint "❌ All deployment attempts failed";
    EvPrint (String (ascii_of_nat 10)
               "🔍 Testing current deployed function...") ].

(** The events that follow the PUT [req] start with the two lines that
    print the status and the body of its response, when it has one. *)
Definition logged_after (w : World) (req : PutRequest) (after : list Event)
  : Prop :=
  forall resp,
    http_put w req = inr resp ->
    exists rest,
      after = EvPrint ("Status: " ++ PyText.str_int (status_code resp))
              :: EvPrint ("Response: " ++ text resp) :: rest.

(** Every PUT of the trace is followed in this way. *)
Fixpoint puts_logged (w : World) (tr : list Event) : Prop :=
  match tr with
  | [] => True
  | EvPut req :: tr' => logged_after w req tr' /\ puts_logged w tr'
  | _ :: tr' => puts_logged w tr'
  end.

(** ** Sample worlds *)

Definition plain_response (status : Z) (body : string) : Response :=
  {| status_code := status; text := body;
     json := inl (Exception_ "JSONDecodeError"
                    "Expecting value: line 1 column 1 (char 0)") |}.

Definition json_response (body : string) (v : pyvalue) : Response :=
  {| status_code := 200; text := body; json := inr v |}.

(** [s] between double quotes, as in JSON text. *)
Definition quoted (s : string) : string :=
  String PyText.dquote (s ++ String PyText.dquote EmptyString).

Definition sample_code : string := "Deno.serve(() => new Response('ok'))".

(** A world with the artifact in place, where the answer to a PUT is
    decided by its URL. *)
Definition sample_world (credential : option string)
  (put_answer : string -> PyExc + Response)
  (get_answer : PyExc + Response) : World :=
  {| environ := fun name =>
       if String.eqb name credential_name then credential else None;
     read_text := fun path =>
       if String.eqb path artifact_path
       then inr sample_code
       else inl (Exception_ "FileNotFoundError" path);
     http_put := fun req => put_answer (put_url req);
     http_get := fun _ => get_answer |}.

Definition refused : PyExc := Exception_ "ConnectionError" "connection refused".

Definition first_accepts (url : string) : PyExc + Response :=
  if String.eqb url (hd "" endpoints)
  then inr (plain_response 200 "{}") else inl refused.

Definition second_accepts (url : string) : PyExc + Response :=
  if String.eqb url (hd "" endpoints)
  then inr (plain_response 500 "internal error")
  else inr (plain_response 200 "{}").

Definition none_accepts (url : string) : PyExc + Response :=
  if String.eqb url (hd "" endpoints)
  then inr (plain_response 503 "unavailable") else inl refused.

Definition first_raises (url : string) : PyExc + Response :=
  if String.eqb url (hd "" endpoints)
  then inl refused else inr (plain_response 201 "created").

Definition healthy : PyExc + Response :=
  inr (json_response
         ("{" ++ quoted "version" ++ ": " ++ quoted "v7" ++ ", "
              ++ quoted "features" ++ ": [" ++ quoted "Tenant-Override" ++ "]}")
         (PyDict [("version", PyStr "v7");
                  ("features", PyList [PyStr "Tenant-Override"])])).


Definition world_first_accepts : World :=
  sample_world (Some "k3y") first_accepts healthy.

Definition world_second_accepts : World :=
  sample_world (Some "k3y") second_accepts healthy.

Definition world_none_accepts : World :=
  sample_world (Some "k3y") none_accepts healthy.

Definition world_first_raises : World :=
  sample_world (Some "k3y") first_raises healthy.

Definition world_health_down : World :=
  sample_world (Some "k3y") none_accepts (inl refused).

Definition world_no_credential : World :=
  sample_world None first_accepts healthy.

(** ** Further vocabulary and sample worlds *)


(** [None], a [bool] or an [int]. *)
Definition plain_scalar (v : pyvalue) : bool :=
  match v with
  | PyNone | PyBool _ | PyInt _ => true
  | _ => false
  end.

(** The character [c] stands somewhere in [s]. *)
Fixpoint has_char (c : ascii) (s : string) : Prop :=
  match s with
  | EmptyString => False
  | String a s' => a = c \/ has_char c s'
  end.

(** A world with the credential set and no artifact on disk. *)
Definition world_no_artifact : World :=
  {| environ := fun name =>
       if String.eqb name credential_name then Some "k3y" else None;
     read_text := fun path =>
       inl (Exception_ "FileNotFoundError"
              ("[Errno 2] No such file or directory: "
               ++ PyText.repr_str path));
     http_put := fun req => first_accepts (put_url req);
     http_get := fun _ => healthy |}.

(** Worlds where no endpoint accepts and the health URL answers with a
    body that is a list, with [features: null], with [features] a
    string, and with neither key. *)
Definition world_health_list : World :=
  sample_world (Some "k3y") none_accepts
    (inr (json_response "[1, 2]" (PyList [PyInt 1; PyInt 2]))).


Definition world_health_text_features : World :=
  sample_world (Some "k3y") none_accepts
    (inr (json_response
            ("{" ++ quoted "features" ++ ": " ++ quoted "tenant-fallback" ++ "}")
            (PyDict [("features", PyStr "tenant-fallback")]))).


(** ** Logged PUTs *)

Lemma logged_after_app w req t1 t2 :
  logged_after w req t1 -> logged_after w req (t1 ++ t2).
Proof.
  intros H resp Hr. destruct (H resp Hr) as (rest & ->).
  now exists (rest ++ t2)%list.
Qed.

Lemma puts_logged_app w t1 t2 :
  puts_logged w t1 -> puts_logged w t2 -> puts_logged w (t1 ++ t2).
Proof.
  intros H1 H2. induction t1 as [|[line | req | url] t1 IH]; cbn in *; auto.
  destruct H1 as [Hl H1]. split; [now apply logged_after_app | auto].
Qed.

Lemma puts_logged_split w tr :
  puts_logged w tr ->
  forall before req after,
    tr = (before ++ EvPut req :: after)%list -> logged_after w req after.
Proof.
  intros H before. revert tr H.
  induction before as [|ev before IH]; intros tr H req after ->; cbn in H.
  - apply H.
  - destruct ev; [| destruct H as [_ H] |]; eapply IH; eauto.
Qed.

Lemma puts_logged_no_put w tr : puts_of tr = [] -> puts_logged w tr.
Proof.
  induction tr as [|[line | req | url] tr IH]; cbn; auto. discriminate.
Qed.

(** ** Traces *)

Lemma puts_of_app (t1 t2 : list Event) :
  puts_of (t1 ++ t2) = (puts_of t1 ++ puts_of t2)%list.
Proof.
  induction t1 as [|[line | r | url] t1 IH]; cbn; congruence.
Qed.

Lemma gets_of_app (t1 t2 : list Event) :
  gets_of (t1 ++ t2) = (gets_of t1 ++ gets_of t2)%list.
Proof.
  induction t1 as [|[line | r | url] t1 IH]; cbn; congruence.
Qed.

Lemma failed_iff_not_accepted (w : World) (req : PutRequest) :
  failed w req <-> ~ accepted w req.
Proof.
  unfold failed, accepted. split.
  - intros [(resp & Hr & Hs) | (e & He)] (resp' & Hr' & Hs'); [|congruence].
    rewrite Hr in Hr'. injection Hr' as <-. lia.
  - intros Hn. destruct (http_put w req) as [e | resp]; [right; eauto|].
    left. exists resp. split; [reflexivity|].
    destruct (Z.lt_ge_cases (status_code resp) 400); [|assumption].
    elim Hn. eauto.
Qed.

(** ** The loop, one iteration at a time *)

Section Loop.

Variable w : World.
Variable p : pyvalue.
Variable h : list (string * string).

#[local] Abbreviation req := (put_request p h).
#[local] Abbreviation loop es := (try_endpoints p h es w).

(** One iteration: its events, and whether it returns from the
    function. *)
Lemma attempt_eq (endpoint : string) :
  attempt p h endpoint w =
  (attempt_events w (req endpoint),
   match http_put w (req endpoint) with
   | inl _ => inr None
   | inr resp => inr (if status_code resp <? 400 then Some true else None)
   end).
Proof.
  unfold attempt, attempt_events, bind, try_except, requests_put, print, ret.
  cbn. fold (req endpoint).
  destruct (http_put w (req endpoint)) as [e | resp]; cbn; [reflexivity|].
  destruct (status_code resp <? 400); reflexivity.
Qed.

(** An attempt answered with a status below 400: [return True]. *)
Lemma try_endpoints_accept endpoint rest :
  accepted w (req endpoint) ->
  loop (endpoint :: rest) = (attempt_events w (req endpoint), inr true).
Proof.
  intros (resp & Hr & Hs). cbn [try_endpoints]. unfold bind at 1.
  rewrite attempt_eq, Hr.
  destruct (Z.ltb_spec (status_code resp) 400); [|lia].
  cbn. rewrite app_nil_r. reflexivity.
Qed.

(** An attempt that fails: the loop goes on with the rest. *)
Lemma try_endpoints_failed endpoint rest :
  failed w (req endpoint) ->
  loop (endpoint :: rest) =
  ((attempt_events w (req endpoint) ++ fst (loop rest))%list,
   snd (loop rest)).
Proof.
  intros Hfail. cbn [try_endpoints]. unfold bind at 1. rewrite attempt_eq.
  destruct Hfail as [(resp & -> & Hs) | (e & ->)].
  - destruct (Z.ltb_spec (status_code resp) 400); [lia|].
    destruct (try_endpoints p h rest w); reflexivity.
  - destruct (try_endpoints p h rest w); reflexivity.
Qed.

(** The two ways through one iteration. *)
Lemma try_endpoints_cases endpoint rest :
  loop (endpoint :: rest) = (attempt_events w (req endpoint), inr true)
  \/ loop (endpoint :: rest) =
     ((attempt_events w (req endpoint) ++ fst (loop rest))%list,
      snd (loop rest)).
Proof.
  destruct (http_put w (req endpoint)) as [e | resp] eqn:Hput.
  - right. apply try_endpoints_failed. right. eauto.
  - destruct (Z.lt_ge_cases (status_code resp) 400) as [Hs | Hs].
    + left. apply try_endpoints_accept. exists resp. auto.
    + right. apply try_endpoints_failed. left. eauto.
Qed.

Lemma puts_of_attempt r : puts_of (attempt_events w r) = [r].
Proof.
  unfold attempt_events. cbn.
  destruct (http_put w r) as [e | resp]; cbn; [reflexivity|].
  destruct (status_code resp <? 400); reflexivity.
Qed.

Lemma gets_of_attempt r : gets_of (attempt_events w r) = [].
Proof.
  unfold attempt_events. cbn.
  destruct (http_put w r) as [e | resp]; cbn; [reflexivity|].
  destruct (status_code resp <? 400); reflexivity.
Qed.

(** The loop never raises: it returns [True] or [False]. *)
Lemma try_endpoints_returns (es : list string) :
  exists b, snd (loop es) = inr b.
Proof.
  induction es as [|endpoint rest IH]; [now exists false|].
  destruct (try_endpoints_cases endpoint rest) as [-> | ->];
    [now exists true | exact IH].
Qed.

(** The loop sends no GET. *)
Lemma try_endpoints_no_get (es : list string) : gets_of (fst (loop es)) = [].
Proof.
  induction es as [|endpoint rest IH]; [reflexivity|].
  destruct (try_endpoints_cases endpoint rest) as [-> | ->]; cbn [fst].
  - apply gets_of_attempt.
  - now rewrite gets_of_app, gets_of_attempt, IH.
Qed.

(** Failures up to the first accepted endpoint: the PUTs go to these
    endpoints, in order, and to no later one; the loop returns True. *)
Lemma try_endpoints_first_accepted (pre post : list string) endpoint :
  (forall e, In e pre -> failed w (req e)) ->
  accepted w (req endpoint) ->
  snd (loop (pre ++ endpoint :: post)%list) = inr true
  /\ puts_of (fst (loop (pre ++ endpoint :: post)%list))
     = map req (pre ++ [endpoint]).
Proof.
  intros Hpre Hacc. induction pre as [|e pre IH]; cbn [app map].
  - rewrite (try_endpoints_accept _ _ Hacc). cbn [fst snd].
    now rewrite puts_of_attempt.
  - rewrite try_endpoints_failed by (apply Hpre; now left).
    cbn [fst snd]. rewrite puts_of_app, puts_of_attempt.
    destruct IH as [IH1 IH2]; [intros; apply Hpre; now right|].
    now rewrite IH1, IH2.
Qed.

(** Failures throughout: one PUT to each endpoint, in order; the loop
    returns False. *)
Lemma try_endpoints_all_failed (es : list string) :
  (forall e, In e es -> failed w (req e)) ->
  snd (loop es) = inr false /\ puts_of (fst (loop es)) = map req es.
Proof.
  intros Hall. induction es as [|e es IH]; [now split|].
  rewrite try_endpoints_failed by (apply Hall; now left).
  cbn [fst snd map]. rewrite puts_of_app, puts_of_attempt.
  destruct IH as [IH1 IH2]; [intros; apply Hall; now right|].
  now rewrite IH1, IH2.
Qed.

(** Every PUT of the loop is a request to one of the endpoints. *)
Lemma try_endpoints_puts (es : list string) r :
  In r (puts_of (fst (loop es))) -> exists e, In e es /\ r = req e.
Proof.
  induction es as [|endpoint rest IH]; [intros []|].
  destruct (try_endpoints_cases endpoint rest) as [-> | ->]; cbn [fst];
    rewrite ?puts_of_app, puts_of_attempt.
  - intros [<- | []]. exists endpoint. split; [now left | reflexivity].
  - intros [<- | Hin]; [exists endpoint; split; [now left | reflexivity]|].
    destruct (IH Hin) as (e & He & ->).
    exists e. split; [now right | reflexivity].
Qed.

(** Whatever the answers, the PUTs go to an initial run of the
    endpoints, in order. *)
Lemma try_endpoints_prefix (es : list string) :
  exists k, puts_of (fst (loop es)) = map req (firstn k es).
Proof.
  induction es as [|endpoint rest [k IH]]; [now exists 0%nat|].
  destruct (try_endpoints_cases endpoint rest) as [-> | ->]; cbn [fst].
  - exists 1%nat. now rewrite puts_of_attempt.
  - exists (S k). now rewrite puts_of_app, puts_of_attempt, IH.
Qed.

(** A loop over a single endpoint sends its one PUT. *)
Lemma try_endpoints_single endpoint :
  puts_of (fst (loop [endpoint])) = [req endpoint].
Proof.
  destruct (try_endpoints_cases endpoint []) as [-> | ->]; cbn [fst];
    now rewrite ?puts_of_app, puts_of_attempt.
Qed.

(** Every PUT of the loop is followed by the lines that print its
    response. *)
Lemma puts_logged_attempt r : puts_logged w (attempt_events w r).
Proof.
  unfold attempt_events. cbn. split.
  - intros resp Hr. rewrite Hr. eexists. reflexivity.
  - destruct (http_put w r) as [e | resp]; cbn; [exact I|].
    destruct (status_code resp <? 400); exact I.
Qed.

Lemma puts_logged_try_endpoints es : puts_logged w (fst (loop es)).
Proof.
  induction es as [|endpoint rest IH]; [exact I|].
  destruct (try_endpoints_cases endpoint rest) as [-> | ->]; cbn [fst].
  - apply puts_logged_attempt.
  - apply puts_logged_app; [apply puts_logged_attempt | exact IH].
Qed.

End Loop.

(** ** [deploy_function] *)

Lemma deploy_function_no_credential (w : World) :
  environ w credential_name = None ->
  deploy_function w
  = ([], inl (Exception_ "KeyError" "'SUPABASE_SERVICE_ROLE_KEY'")).
Proof.
  intros He. unfold deploy_function, bind, os_environ. now rewrite He.
Qed.

Lemma deploy_function_unreadable (w : World) key e :
  environ w credential_name = Some key ->
  read_text w artifact_path = inl e ->
  deploy_function w = ([], inl e).
Proof.
  intros He Hf. unfold deploy_function, bind, os_environ, open_read.
  now rewrite He, Hf.
Qed.

Lemma deploy_function_loop (w : World) key code :
  environ w credential_name = Some key ->
  read_text w artifact_path = inr code ->
  deploy_function w
  = try_endpoints (payload code) (headers key) endpoints w.
Proof.
  intros He Hf. unfold deploy_function, bind, os_environ, open_read.
  rewrite He, Hf.
  destruct (try_endpoints (payload code) (headers key) endpoints w).
  reflexivity.
Qed.

(** Either the set-up raises, before any effect, or the loop runs. *)
Lemma deploy_function_cases (w : World) :
  (exists e, deploy_function w = ([], inl e))
  \/ (exists key code,
        environ w credential_name = Some key
        /\ read_text w artifact_path = inr code
        /\ deploy_function w
           = try_endpoints (payload code) (headers key) endpoints w).
Proof.
  destruct (environ w credential_name) as [key|] eqn:He.
  - destruct (read_text w artifact_path) as [e | code] eqn:Hf.
    + left. exists e. exact (deploy_function_unreadable _ _ _ He Hf).
    + right. exists key, code.
      split; [reflexivity|]. split; [reflexivity|].
      exact (deploy_function_loop _ _ _ He Hf).
  - left. eexists. exact (deploy_function_no_credential _ He).
Qed.

(** Whatever the world, [deploy_function] sends no GET. *)
Lemma deploy_function_no_get (w : World) :
  gets_of (fst (deploy_function w)) = [].
Proof.
  destruct (deploy_function_cases w)
    as [(e & ->) | (key & code & _ & _ & ->)]; [reflexivity|].
  apply try_endpoints_no_get.
Qed.

(** Every PUT of [deploy_function] is the request of this run to one of
    the endpoints. *)
Lemma deploy_function_puts (w : World) req :
  In req (puts_of (fst (deploy_function w))) ->
  exists key code e,
    environ w credential_name = Some key
    /\ read_text w artifact_path = inr code
    /\ In e endpoints /\ req = request_to key code e.
Proof.
  destruct (deploy_function_cases w)
    as [(e & ->) | (key & code & He & Hf & ->)]; [intros []|].
  intros Hin. apply try_endpoints_puts in Hin.
  destruct Hin as (e & Hin & ->). now exists key, code, e.
Qed.

(** ** The fallback health check *)

(** Case analysis on each answer the goal branches on, outermost
    first. *)
Ltac by_answers :=
  repeat match goal with
         | |- context [match ?r with inl _ => _ | inr _ => _ end] =>
             destruct r
         end;
  reflexivity.

Lemma health_check_eq (w : World) :
  health_check w = (health_events w, inr tt).
Proof.
  unfold health_check, health_events, try_except, bind, requests_get,
    lift, print.
  by_answers.
Qed.

Lemma gets_of_health_events (w : World) :
  gets_of (health_events w) = [health_url].
Proof. unfold health_events. cbn [gets_of]. f_equal. by_answers. Qed.

Lemma puts_of_health_events (w : World) :
  puts_of (health_events w) = [].
Proof. unfold health_events. cbn [puts_of]. by_answers. Qed.

(** ** The main block *)

Lemma main_raise (w : World) e :
  snd (deploy_function w) = inl e ->
  main w = (fst (deploy_function w), inl e).
Proof.
  unfold main, bind. destruct (deploy_function w) as [t [e' | b]]; cbn.
  - now intros [= ->].
  - discriminate.
Qed.

Lemma main_success (w : World) :
  snd (deploy_function w) = inr true ->
  main w = (fst (deploy_function w), inr tt).
Proof.
  unfold main, bind. destruct (deploy_function w) as [t [e' | b]]; cbn.
  - discriminate.
  - intros [= ->]. cbn. now rewrite app_nil_r.
Qed.

Lemma main_fallback (w : World) :
  snd (deploy_function w) = inr false ->
  main w
  = ((fst (deploy_function w) ++ fallback_banner ++ health_events w)%list,
     inr tt).
Proof.
  unfold main. unfold bind at 1.
  destruct (deploy_function w) as [t [e' | b]]; cbn [fst snd].
  - discriminate.
  - intros [= ->]. cbn [negb]. unfold bind, print.
    rewrite health_check_eq. reflexivity.
Qed.

(** The PUTs of a whole run are those of [deploy_function]. *)
Lemma main_puts (w : World) :
  puts_of (fst (main w)) = puts_of (fst (deploy_function w)).
Proof.
  destruct (snd (deploy_function w)) as [e | [|]] eqn:Hd.
  - now rewrite (main_raise _ _ Hd).
  - now rewrite (main_success _ Hd).
  - rewrite (main_fallback _ Hd). cbn [fst].
    rewrite !puts_of_app, puts_of_health_events. cbn.
    now rewrite app_nil_r.
Qed.

(** ** Substring test *)

Lemma prefix_iff (s1 s2 : string) :
  String.prefix s1 s2 = true <-> exists post, s2 = s1 ++ post.
Proof.
  revert s2. induction s1 as [|a s1 IH]; intros s2.
  - destruct s2; cbn; split; eauto.
  - destruct s2 as [|b s2]; cbn.
    + split; [discriminate | intros (post & Hp); discriminate].
    + destruct (ascii_dec a b) as [-> | Hab].
      * rewrite IH. split; intros (post & Hp); exists post.
        -- now rewrite Hp.
        -- now injection Hp.
      * split; [discriminate|]. intros (post & Hp).
        injection Hp as Hba _. now elim Hab.
Qed.

Lemma py_in_occurs (sub s : string) :
  PyText.py_in sub s = true <-> occurs sub s.
Proof.
  unfold occurs. induction s as [|c s IH].
  - cbn [PyText.py_in]. rewrite orb_false_r, prefix_iff. split.
    + intros (post & Hp). now exists "", post.
    + intros ([|a pre] & post & Hp); [now exists post|discriminate].
  - cbn [PyText.py_in]. rewrite orb_true_iff, prefix_iff, IH. split.
    + intros [(post & Hp) | (pre & post & Hp)].
      * now exists "", post.
      * exists (String c pre), post. cbn. now rewrite Hp.
    + intros ([|a pre] & post & Hp).
      * left. now exists post.
      * right. exists pre, post. cbn in Hp. now injection Hp.
Qed.

Lemma mentions_tenant_fallback_iff (f : pyvalue) :
  mentions_tenant_fallback f = true <->
  occurs "tenant" (PyText.lower (PyValue.py_str f))
  \/ occurs "fallback" (PyText.lower (PyValue.py_str f)).
Proof.
  unfold mentions_tenant_fallback.
  now rewrite orb_true_iff, !py_in_occurs.
Qed.

Lemma has_fallback_iff (features : list pyvalue) :
  has_fallback features = true <->
  exists f, In f features
            /\ (occurs "tenant" (PyText.lower (PyValue.py_str f))
                \/ occurs "fallback" (PyText.lower (PyValue.py_str f))).
Proof.
  unfold has_fallback. rewrite existsb_exists.
  split; intros (f & Hin & Hf); exists f; split; trivial;
    now apply mentions_tenant_fallback_iff.
Qed.

Lemma puts_logged_deploy_function w :
  puts_logged w (fst (deploy_function w)).
Proof.
  destruct (deploy_function_cases w)
    as [(e & ->) | (key & code & _ & _ & ->)]; [exact I|].
  apply puts_logged_try_endpoints.
Qed.

Lemma puts_logged_main w : puts_logged w (fst (main w)).
Proof.
  destruct (snd (deploy_function w)) as [e | [|]] eqn:Hd.
  - rewrite (main_raise _ _ Hd). apply puts_logged_deploy_function.
  - rewrite (main_success _ Hd). apply puts_logged_deploy_function.
  - rewrite (main_fallback _ Hd). cbn [fst].
    apply puts_logged_app; [apply puts_logged_deploy_function|].
    apply puts_logged_no_put.
    rewrite puts_of_app. now rewrite puts_of_health_events.
Qed.

(** ** Properties of the script *)

Lemma main_returns (w : World) b :
  snd (deploy_function w) = inr b -> snd (main w) = inr tt.
Proof.
  destruct b; intros Hd.
  - now rewrite (main_success _ Hd).
  - now rewrite (main_fallback _ Hd).
Qed.

(** C1: with the credential present and the artifact readable, the PUTs
    of [deploy_function] go to an initial run of the endpoints, in their
    listed order; when some endpoint is the first one answered with a
    status below 400, the PUTs go up to and including that one,
    [deploy_function] returns True and no later endpoint is tried.  In
    particular, a first answer of 200 gives True after one PUT, and
    answers 500 then 200 give True after exactly two PUTs. *)
Theorem deploy_stops_at_first_success (w : World) (key code : string) :
  environ w credential_name = Some key ->
  read_text w artifact_path = inr code ->
  (exists k,
      puts_of (fst (deploy_function w))
      = map (request_to key code) (firstn k endpoints))
  /\ (forall pre e post,
        endpoints = (pre ++ e :: post)%list ->
        (forall e', In e' pre -> failed w (request_to key code e')) ->
        accepted w (request_to key code e) ->
        snd (deploy_function w) = inr true
        /\ puts_of (fst (deploy_function w))
           = map (request_to key code) (pre ++ [e]))
  /\ (forall e1 e2 r1,
        endpoints = [e1; e2] ->
        http_put w (request_to key code e1) = inr r1 ->
        status_code r1 = 200 ->
        snd (deploy_function w) = inr true
        /\ puts_of (fst (deploy_function w)) = [request_to key code e1])
  /\ (forall e1 e2 r1 r2,
        endpoints = [e1; e2] ->
        http_put w (request_to key code e1) = inr r1 ->
        status_code r1 = 500 ->
        http_put w (request_to key code e2) = inr r2 ->
        status_code r2 = 200 ->
        snd (deploy_function w) = inr true
        /\ puts_of (fst (deploy_function w))
           = [request_to key code e1; request_to key code e2]).
Proof.
  intros He Hf. rewrite (deploy_function_loop _ _ _ He Hf).
  assert (Hgen : forall pre e post,
      endpoints = (pre ++ e :: post)%list ->
      (forall e', In e' pre -> failed w (request_to key code e')) ->
      accepted w (request_to key code e) ->
      snd (try_endpoints (payload code) (headers key) endpoints w) = inr true
      /\ puts_of (fst (try_endpoints (payload code) (headers key) endpoints w))
         = map (request_to key code) (pre ++ [e])).
  { intros pre e post -> Hpre Hacc.
    now apply try_endpoints_first_accepted. }
  split; [apply try_endpoints_prefix|].
  split; [exact Hgen|]. split.
  - intros e1 e2 r1 Hes Hr1 Hs1.
    apply (Hgen [] e1 [e2] Hes); [intros ? []|].
    exists r1. split; [exact Hr1 | lia].
  - intros e1 e2 r1 r2 Hes Hr1 Hs1 Hr2 Hs2.
    apply (Hgen [e1] e2 [] Hes).
    + intros e' [<- | []]. left. exists r1. split; [exact Hr1 | lia].
    + exists r2. split; [exact Hr2 | lia].
Qed.

Lemma deploy_stops_at_first_success_witness :
  environ world_second_accepts credential_name = Some "k3y"
  /\ read_text world_second_accepts artifact_path = inr sample_code
  /\ snd (deploy_function world_second_accepts) = inr true
  /\ map put_url (puts_of (fst (deploy_function world_second_accepts)))
     = endpoints.
Proof.
  destruct (deploy_stops_at_first_success world_second_accepts "k3y" sample_code
              eq_refl eq_refl) as (_ & _ & _ & H).
  destruct (H _ _ _ _ eq_refl eq_refl eq_refl eq_refl eq_refl) as [H1 H2].
  split; [reflexivity|]. split; [reflexivity|].
  split; [exact H1 | rewrite H2; reflexivity].
Defined.

(** C2: when every attempt fails (status 400 or more, or an exception),
    [deploy_function] returns False and the run then sends exactly one
    GET, to the health URL, after the deploy phase; when
    [deploy_function] returns True the run sends no GET. *)
Theorem all_failed_then_one_health_get (w : World) (key code : string) :
  environ w credential_name = Some key ->
  read_text w artifact_path = inr code ->
  ((forall e, In e endpoints -> failed w (request_to key code e)) ->
   snd (deploy_function w) = inr false
   /\ gets_of (fst (main w)) = [health_url]
   /\ exists after,
       fst (main w) = (fst (deploy_function w) ++ after)%list
       /\ gets_of after = [health_url])
  /\ (snd (deploy_function w) = inr true -> gets_of (fst (main w)) = []).
Proof.
  intros He Hf. split.
  - intros Hall.
    assert (Hd : snd (deploy_function w) = inr false).
    { rewrite (deploy_function_loop _ _ _ He Hf).
      now apply try_endpoints_all_failed. }
    split; [exact Hd|]. rewrite (main_fallback _ Hd). cbn [fst]. split.
    + rewrite !gets_of_app, deploy_function_no_get, gets_of_health_events.
      reflexivity.
    + exists (fallback_banner ++ health_events w)%list. split; [reflexivity|].
      now rewrite gets_of_app, gets_of_health_events.
  - intros Hd. rewrite (main_success _ Hd). apply deploy_function_no_get.
Qed.

Lemma all_failed_then_one_health_get_witness :
  (forall e, In e endpoints ->
             failed world_none_accepts (request_to "k3y" sample_code e))
  /\ snd (deploy_function world_none_accepts) = inr false
  /\ gets_of (fst (main world_none_accepts)) = [health_url]
  /\ snd (deploy_function world_first_accepts) = inr true
  /\ gets_of (fst (main world_first_accepts)) = [].
Proof.
  assert (Hall : forall e, In e endpoints ->
             failed world_none_accepts (request_to "k3y" sample_code e)).
  { intros e [<- | [<- | []]].
    - left. eexists. split; [reflexivity | cbn; lia].
    - right. eexists. reflexivity. }
  destruct (all_failed_then_one_health_get world_none_accepts "k3y"
              sample_code eq_refl eq_refl) as [H _].
  destruct (H Hall) as (H1 & H2 & _).
  destruct (all_failed_then_one_health_get world_first_accepts "k3y"
              sample_code eq_refl eq_refl) as [_ H'].
  split; [exact Hall|]. split; [exact H1|]. split; [exact H2|].
  split; [reflexivity | apply H'; reflexivity].
Defined.

(** C3: without the credential in the environment the run ends with the
    KeyError of the lookup, uncaught, and has sent no PUT and no GET
    (it has done nothing at all). *)
Theorem missing_credential_is_fatal (w : World) :
  environ w credential_name = None ->
  main w = ([], inl (Exception_ "KeyError" "'SUPABASE_SERVICE_ROLE_KEY'"))
  /\ puts_of (fst (main w)) = []
  /\ gets_of (fst (main w)) = [].
Proof.
  intros He.
  assert (Hm : main w
               = ([], inl (Exception_ "KeyError" "'SUPABASE_SERVICE_ROLE_KEY'"))).
  { rewrite (main_raise w (Exception_ "KeyError" "'SUPABASE_SERVICE_ROLE_KEY'"));
      now rewrite (deploy_function_no_credential _ He). }
  now rewrite Hm.
Qed.

Lemma missing_credential_is_fatal_witness :
  environ world_no_credential credential_name = None
  /\ snd (main world_no_credential)
     = inl (Exception_ "KeyError" "'SUPABASE_SERVICE_ROLE_KEY'")
  /\ fst (main world_no_credential) = [].
Proof.
  destruct (missing_credential_is_fatal world_no_credential eq_refl)
    as (H & _ & _).
  rewrite H. split; [reflexivity|]. split; reflexivity.
Defined.



(** C5: an exception raised by the PUT of one endpoint is caught and
    printed, and the loop goes on with the remaining endpoints exactly
    as it would have started on them; in a run, an exception on the
    first endpoint leaves the second one tried and the run ending
    normally. *)
Theorem put_exception_is_caught :
  (forall w p h endpoint rest e,
      http_put w (put_request p h endpoint) = inl e ->
      try_endpoints p h (endpoint :: rest) w
      = (([EvPrint ("Trying " ++ endpoint ++ "...");
           EvPut (put_request p h endpoint);
           EvPrint ("❌ Error: " ++ exc_str e)]
          ++ fst (try_endpoints p h rest w))%list,
         snd (try_endpoints p h rest w)))
  /\ (forall w key code e1 e2 e,
        environ w credential_name = Some key ->
        read_text w artifact_path = inr code ->
        endpoints = [e1; e2] ->
        http_put w (request_to key code e1) = inl e ->
        puts_of (fst (main w))
        = [request_to key code e1; request_to key code e2]
        /\ In (EvPrint ("❌ Error: " ++ exc_str e)) (fst (main w))
        /\ snd (main w) = inr tt).
Proof.
  split.
  - intros w p h endpoint rest e He.
    rewrite try_endpoints_failed by (right; eauto).
    unfold attempt_events. now rewrite He.
  - intros w key code e1 e2 e Henv Hf Hes He.
    assert (Hd : deploy_function w
                 = ((attempt_events w (request_to key code e1)
                     ++ fst (try_endpoints (payload code) (headers key) [e2] w))%list,
                    snd (try_endpoints (payload code) (headers key) [e2] w))).
    { rewrite (deploy_function_loop _ _ _ Henv Hf), Hes.
      apply try_endpoints_failed. right. eauto. }
    destruct (try_endpoints_returns w (payload code) (headers key) [e2])
      as [b Hb].
    assert (Hret : snd (deploy_function w) = inr b) by now rewrite Hd.
    split; [|split].
    + rewrite main_puts, Hd. cbn [fst].
      rewrite puts_of_app, puts_of_attempt, try_endpoints_single.
      reflexivity.
    + assert (Hin : In (EvPrint ("❌ Error: " ++ exc_str e))
                       (fst (deploy_function w))).
      { rewrite Hd. cbn [fst]. apply in_or_app. left.
        unfold attempt_events. rewrite He. cbn. tauto. }
      destruct b.
      * now rewrite (main_success _ Hret).
      * rewrite (main_fallback _ Hret). cbn [fst].
        apply in_or_app. now left.
    + exact (main_returns _ _ Hret).
Qed.

Lemma put_exception_is_caught_witness :
  http_put world_first_raises
    (request_to "k3y" sample_code (hd "" endpoints)) = inl refused
  /\ map put_url (puts_of (fst (main world_first_raises))) = endpoints
  /\ snd (main world_first_raises) = inr tt
  /\ prints_of (fst (try_endpoints PyNone [] [hd "" endpoints]
                      world_first_raises))
     = ["Trying " ++ hd "" endpoints ++ "..."; "❌ Error: connection refused"].
Proof.
  destruct put_exception_is_caught as [Hloop Hrun].
  destruct (Hrun world_first_raises "k3y" sample_code _ _ refused
              eq_refl eq_refl eq_refl eq_refl) as (H1 & _ & H3).
  split; [reflexivity|]. split; [rewrite H1; reflexivity|].
  split; [exact H3|].
  rewrite (Hloop world_first_raises PyNone [] (hd "" endpoints) [] refused
             eq_refl).
  reflexivity.
Defined.

(** C6: in a run that reaches the health check, the run ends normally
    whatever happens there; when the GET raises, or the JSON parsing of
    its response raises, the exception is caught and the last thing
    printed is the failure line carrying its text. *)
Theorem health_check_failure_is_swallowed (w : World) :
  snd (deploy_function w) = inr false ->
  snd (main w) = inr tt
  /\ (forall e,
        http_get w health_url = inl e
        \/ (exists resp, http_get w health_url = inr resp
                         /\ json resp = inl e) ->
        fst (main w)
        = (fst (deploy_function w) ++ fallback_banner
           ++ [EvGet health_url;
               EvPrint ("Health check failed: " ++ exc_str e)])%list).
Proof.
  intros Hd. rewrite (main_fallback _ Hd). cbn [fst snd].
  split; [reflexivity|].
  intros e [Hg | (resp & Hg & Hj)]; unfold health_events.
  - now rewrite Hg.
  - now rewrite Hg, Hj.
Qed.

Lemma health_check_failure_is_swallowed_witness :
  snd (deploy_function world_health_down) = inr false
  /\ snd (main world_health_down) = inr tt
  /\ last (fst (main world_health_down)) (EvGet "")
     = EvPrint "Health check failed: connection refused".
Proof.
  destruct (health_check_failure_is_swallowed world_health_down eq_refl)
    as [H1 H2].
  split; [reflexivity|]. split; [exact H1|].
  rewrite (H2 refused (or_introl eq_refl)). reflexivity.
Defined.

(** C7: every PUT of a run carries the payload
    [{slug, body, verify_jwt}] built from the artifact text, the headers
    [Authorization: Bearer <credential>] and
    [Content-Type: application/json], and the timeout 30; any two PUTs of
    a run carry the same payload and the same headers. *)
Theorem every_put_carries_payload (w : World) (key code : string) :
  environ w credential_name = Some key ->
  read_text w artifact_path = inr code ->
  (forall req,
      In req (puts_of (fst (main w))) ->
      put_json req
      = PyDict [("slug", PyStr "twilio-voice-stream");
                ("body", PyStr code);
                ("verify_jwt", PyBool false)]
      /\ put_headers req
         = [("Authorization", "Bearer " ++ key);
            ("Content-Type", "application/json")]
      /\ put_timeout req = 30)
  /\ (forall r1 r2,
        In r1 (puts_of (fst (main w))) ->
        In r2 (puts_of (fst (main w))) ->
        put_json r1 = put_json r2 /\ put_headers r1 = put_headers r2).
Proof.
  intros He Hf.
  assert (Hreq : forall req, In req (puts_of (fst (main w))) ->
                 exists e, req = request_to key code e).
  { intros req Hin. rewrite main_puts in Hin.
    apply deploy_function_puts in Hin.
    destruct Hin as (key' & code' & e & He' & Hf' & _ & ->).
    exists e. congruence. }
  split.
  - intros req Hin. destruct (Hreq req Hin) as (e & ->). now repeat split.
  - intros r1 r2 H1 H2.
    destruct (Hreq r1 H1) as (e1 & ->), (Hreq r2 H2) as (e2 & ->).
    now split.
Qed.

Lemma every_put_carries_payload_witness :
  In (request_to "k3y" sample_code (hd "" endpoints))
     (puts_of (fst (main world_second_accepts)))
  /\ put_headers (request_to "k3y" sample_code (hd "" endpoints))
     = [("Authorization", "Bearer k3y"); ("Content-Type", "application/json")]
  /\ put_timeout (request_to "k3y" sample_code (hd "" endpoints)) = 30.
Proof.
  assert (Hin : In (request_to "k3y" sample_code (hd "" endpoints))
                   (puts_of (fst (main world_second_accepts))))
    by (left; reflexivity).
  destruct (every_put_carries_payload world_second_accepts "k3y" sample_code
              eq_refl eq_refl) as [H _].
  destruct (H _ Hin) as (_ & H2 & H3).
  split; [exact Hin|]. split; [exact H2 | exact H3].
Defined.

(** C8: wherever a PUT stands in the trace of a run, if the world
    answered it with a response, the next two events print that
    response's status code and its body, be the status below 400 or
    not. *)
Theorem put_response_is_printed (w : World) before req after resp :
  fst (main w) = (before ++ EvPut req :: after)%list ->
  http_put w req = inr resp ->
  exists rest,
    after = EvPrint ("Status: " ++ PyText.str_int (status_code resp))
            :: EvPrint ("Response: " ++ text resp) :: rest.
Proof.
  intros Htr Hr.
  exact (puts_logged_split w _ (puts_logged_main w) _ _ _ Htr resp Hr).
Qed.

Lemma put_response_is_printed_witness :
  exists before after,
    fst (main world_second_accepts)
    = (before
       ++ EvPut (request_to "k3y" sample_code (hd "" endpoints)) :: after)%list
    /\ http_put world_second_accepts
         (request_to "k3y" sample_code (hd "" endpoints))
       = inr (plain_response 500 "internal error")
    /\ firstn 2 after
       = [EvPrint "Status: 500"; EvPrint "Response: internal error"].
Proof.
  exists [EvPrint ("Trying " ++ hd "" endpoints ++ "...")].
  exists (tl (tl (fst (main world_second_accepts)))).
  assert (Htr : fst (main world_second_accepts)
                = ([EvPrint ("Trying " ++ hd "" endpoints ++ "...")]
                   ++ EvPut (request_to "k3y" sample_code (hd "" endpoints))
                   :: tl (tl (fst (main world_second_accepts))))%list)
    by reflexivity.
  destruct (put_response_is_printed world_second_accepts _ _ _
              (plain_response 500 "internal error") Htr eq_refl)
    as (rest & Hrest).
  split; [exact Htr|]. split; [reflexivity|].
  rewrite Hrest. reflexivity.
Defined.

(** C9: with the credential set and the artifact readable,
    [deploy_function] returns True or False and raises nothing; one
    iteration of the loop raises nothing either, whatever the PUT does. *)
Theorem deploy_function_returns_bool (w : World) (key code : string) :
  environ w credential_name = Some key ->
  read_text w artifact_path = inr code ->
  (exists b, snd (deploy_function w) = inr b)
  /\ (forall p h endpoint, exists r, snd (attempt p h endpoint w) = inr r).
Proof.
  intros He Hf. split.
  - rewrite (deploy_function_loop _ _ _ He Hf). apply try_endpoints_returns.
  - intros p h endpoint. rewrite attempt_eq. cbn [snd].
    destruct (http_put w (put_request p h endpoint)); eauto.
Qed.

Lemma deploy_function_returns_bool_witness :
  environ world_first_raises credential_name = Some "k3y"
  /\ read_text world_first_raises artifact_path = inr sample_code
  /\ exists b, snd (deploy_function world_first_raises) = inr b.
Proof.
  destruct (deploy_function_returns_bool world_first_raises "k3y" sample_code
              eq_refl eq_refl) as [H _].
  split; [reflexivity|]. split; [reflexivity | exact H].
Defined.

(** C10: the payload sets [verify_jwt] to False, and so does the JSON
    body of every PUT of every run. *)
Theorem verify_jwt_is_false :
  (forall code,
      PyValue.py_get (payload code) "verify_jwt" PyNone = inr (PyBool false))
  /\ (forall w req,
        In req (puts_of (fst (main w))) ->
        PyValue.py_get (put_json req) "verify_jwt" PyNone
        = inr (PyBool false)).
Proof.
  split; [reflexivity|].
  intros w req Hin. rewrite main_puts in Hin.
  apply deploy_function_puts in Hin.
  destruct Hin as (key & code & e & _ & _ & _ & ->). reflexivity.
Qed.

Lemma verify_jwt_is_false_witness :
  In (request_to "k3y" sample_code (hd "" endpoints))
     (puts_of (fst (main world_none_accepts)))
  /\ PyValue.py_get
       (put_json (request_to "k3y" sample_code (hd "" endpoints)))
       "verify_jwt" PyNone
     = inr (PyBool false).
Proof.
  assert (Hin : In (request_to "k3y" sample_code (hd "" endpoints))
                   (puts_of (fst (main world_none_accepts))))
    by (left; reflexivity).
  destruct verify_jwt_is_false as [_ H].
  split; [exact Hin | exact (H _ _ Hin)].
Defined.

(** ** Further properties of the script *)

Lemma accepted_or_failed (w : World) (req : PutRequest) :
  accepted w req \/ failed w req.
Proof.
  destruct (http_put w req) as [e | resp] eqn:Hput.
  - right. right. eauto.
  - destruct (Z.lt_ge_cases (status_code resp) 400).
    + left. exists resp. auto.
    + right. left. eauto.
Qed.

(** The three ways through a run: the set-up raises; the loop returns
    True; the loop returns False and the health check follows. *)
Lemma main_cases (w : World) :
  (exists e, deploy_function w = ([], inl e) /\ main w = ([], inl e))
  \/ (exists key code,
        environ w credential_name = Some key
        /\ read_text w artifact_path = inr code
        /\ ((snd (deploy_function w) = inr true
             /\ main w = (fst (deploy_function w), inr tt))
            \/ (snd (deploy_function w) = inr false
                /\ main w
                   = ((fst (deploy_function w) ++ fallback_banner
                       ++ health_events w)%list, inr tt)))).
Proof.
  destruct (deploy_function_cases w)
    as [(e & Hd) | (key & code & He & Hf & Hd)].
  - left. exists e. split; [exact Hd|].
    rewrite (main_raise w e); now rewrite Hd.
  - right. exists key, code. split; [exact He|]. split; [exact Hf|].
    destruct (try_endpoints_returns w (payload code) (headers key) endpoints)
      as [[|] Hb]; rewrite <- Hd in Hb.
    + left. split; [exact Hb | exact (main_success _ Hb)].
    + right. split; [exact Hb | exact (main_fallback _ Hb)].
Qed.

(** X1: with the credential set, an artifact that cannot be read ends the
    run with the exception of the read, uncaught, before anything is
    printed or sent. *)
Theorem unreadable_artifact_is_fatal (w : World) (key : string) (e : PyExc) :
  environ w credential_name = Some key ->
  read_text w artifact_path = inl e ->
  main w = ([], inl e).
Proof.
  intros He Hf. rewrite (main_raise w e);
    now rewrite (deploy_function_unreadable _ _ _ He Hf).
Qed.

Lemma unreadable_artifact_is_fatal_witness :
  environ world_no_artifact credential_name = Some "k3y"
  /\ main world_no_artifact
     = ([], inl (Exception_ "FileNotFoundError"
                   "[Errno 2] No such file or directory: 'supabase/functions/twilio-voice-stream/index.ts'")).
Proof.
  split; [reflexivity|].
  exact (unreadable_artifact_is_fatal world_no_artifact "k3y" _
           eq_refl eq_refl).
Defined.

Section LoopOutcome.

Variable w : World.
Variable p : pyvalue.
Variable h : list (string * string).

#[local] Abbreviation rq := (put_request p h).
#[local] Abbreviation lp es := (try_endpoints p h es w).

(** The loop returns True exactly when some endpoint accepts. *)
Lemma try_endpoints_true_iff (es : list string) :
  snd (lp es) = inr true <-> exists e, In e es /\ accepted w (rq e).
Proof.
  induction es as [|endpoint rest IH].
  - split; [discriminate | intros (e & [] & _)].
  - destruct (accepted_or_failed w (rq endpoint)) as [Ha | Hf].
    + rewrite (try_endpoints_accept _ _ _ _ _ Ha). cbn [snd].
      split; [|reflexivity]. intros _. exists endpoint. split; [now left | exact Ha].
    + rewrite (try_endpoints_failed _ _ _ _ _ Hf). cbn [snd]. rewrite IH.
      split; intros (e & Hin & Ha).
      * exists e. split; [now right | exact Ha].
      * destruct Hin as [<- | Hin]; [|now exists e].
        now apply failed_iff_not_accepted in Hf.
Qed.

(** The loop returns False exactly when every endpoint fails. *)
Lemma try_endpoints_false_iff (es : list string) :
  snd (lp es) = inr false <-> forall e, In e es -> failed w (rq e).
Proof.
  split; [|apply try_endpoints_all_failed].
  intros Hfalse e Hin. apply failed_iff_not_accepted. intros Ha.
  assert (Ht : snd (lp es) = inr true)
    by (apply try_endpoints_true_iff; eauto).
  congruence.
Qed.

End LoopOutcome.

(** X2: with the credential and the artifact in place, [deploy_function]
    returns True exactly when some endpoint answers its PUT with a status
    below 400, and False exactly when every endpoint fails. *)
Theorem deploy_true_iff_some_accepted (w : World) (key code : string) :
  environ w credential_name = Some key ->
  read_text w artifact_path = inr code ->
  (snd (deploy_function w) = inr true <->
   exists e, In e endpoints /\ accepted w (request_to key code e))
  /\ (snd (deploy_function w) = inr false <->
      forall e, In e endpoints -> failed w (request_to key code e)).
Proof.
  intros He Hf. rewrite (deploy_function_loop _ _ _ He Hf).
  split; [apply try_endpoints_true_iff | apply try_endpoints_false_iff].
Qed.

Lemma deploy_true_iff_some_accepted_witness :
  environ world_first_raises credential_name = Some "k3y"
  /\ read_text world_first_raises artifact_path = inr sample_code
  /\ exists e, In e endpoints
               /\ accepted world_first_raises (request_to "k3y" sample_code e).
Proof.
  split; [reflexivity|]. split; [reflexivity|].
  apply (deploy_true_iff_some_accepted world_first_raises "k3y" sample_code
           eq_refl eq_refl).
  reflexivity.
Defined.

(** X3: a run ends normally exactly when the credential is set and the
    artifact can be read; failed deploy attempts and a failed health
    check do not make it end with an exception. *)
Theorem main_returns_iff_configured (w : World) :
  snd (main w) = inr tt <->
  exists key code,
    environ w credential_name = Some key
    /\ read_text w artifact_path = inr code.
Proof.
  split.
  - intros Hm. destruct (main_cases w)
      as [(e & _ & Hmain) | (key & code & He & Hf & _)]; [|eauto].
    rewrite Hmain in Hm. discriminate.
  - intros (key & code & He & Hf).
    destruct (main_cases w)
      as [(e & Hd & _) | (_ & _ & _ & _ & [[_ ->] | [_ ->]])];
      try reflexivity.
    rewrite (deploy_function_loop _ _ _ He Hf) in Hd.
    destruct (try_endpoints_returns w (payload code) (headers key) endpoints)
      as [b Hb].
    rewrite Hd in Hb. discriminate.
Qed.

Lemma main_returns_iff_configured_witness :
  snd (deploy_function world_health_down) = inr false
  /\ http_get world_health_down health_url = inl refused
  /\ snd (main world_health_down) = inr tt.
Proof.
  split; [reflexivity|]. split; [reflexivity|].
  apply (main_returns_iff_configured world_health_down).
  exists "k3y", sample_code. split; reflexivity.
Defined.

(** ** Where the success line stands *)

(** The success line is among the events of one iteration exactly when
    its PUT is accepted. *)
Lemma success_in_attempt (w : World) (r : PutRequest) :
  In (EvPrint "✅ Deployment successful!") (attempt_events w r)
  <-> accepted w r.
Proof.
  unfold attempt_events, accepted. split.
  - intros [Hin | [Hin | Hin]]; [discriminate Hin | discriminate Hin |].
    destruct (http_put w r) as [e | resp].
    + destruct Hin as [Hin | []]. discriminate Hin.
    + destruct Hin as [Hin | [Hin | Hin]];
        [discriminate Hin | discriminate Hin |].
      exists resp. split; [reflexivity|].
      destruct (Z.ltb_spec (status_code resp) 400); [assumption|].
      destruct Hin.
  - intros (resp & -> & Hs). do 4 right.
    destruct (Z.ltb_spec (status_code resp) 400); [now left | lia].
Qed.

Lemma success_not_in_health (w : World) :
  ~ In (EvPrint "✅ Deployment successful!")
       (fallback_banner ++ health_events w).
Proof.
  unfold fallback_banner, health_events. cbn [app].
  intros [Hin | [Hin | [Hin | Hin]]]; try discriminate Hin.
  destruct (http_get w health_url) as [e | resp];
    [destruct Hin as [Hin | []]; discriminate Hin|].
  destruct (json resp) as [e | health];
    [destruct Hin as [Hin | []]; discriminate Hin|].
  destruct (PyValue.py_get health "version" (PyStr "unknown"))
    as [e | version];
    [destruct Hin as [Hin | []]; discriminate Hin|].
  destruct Hin as [Hin | Hin]; [discriminate Hin|].
  destruct (tenant_fallback_diagnostic health) as [e | has];
    destruct Hin as [Hin | []]; discriminate Hin.
Qed.

Section LoopSuccess.

Variable w : World.
Variable p : pyvalue.
Variable h : list (string * string).

(** The loop prints the success line exactly when it returns True, and
    then as its last event. *)
Lemma success_in_loop (es : list string) :
  In (EvPrint "✅ Deployment successful!") (fst (try_endpoints p h es w))
  <-> snd (try_endpoints p h es w) = inr true.
Proof.
  induction es as [|endpoint rest IH].
  - cbn. split; [intros [] | discriminate].
  - destruct (accepted_or_failed w (put_request p h endpoint)) as [Ha | Hf].
    + rewrite (try_endpoints_accept _ _ _ _ _ Ha). cbn [fst snd].
      rewrite success_in_attempt. tauto.
    + rewrite (try_endpoints_failed _ _ _ _ _ Hf). cbn [fst snd].
      rewrite in_app_iff, success_in_attempt, IH.
      apply failed_iff_not_accepted in Hf. tauto.
Qed.

Lemma success_ends_loop (es : list string) :
  snd (try_endpoints p h es w) = inr true ->
  exists before,
    fst (try_endpoints p h es w)
    = (before ++ [EvPrint "✅ Deployment successful!"])%list.
Proof.
  induction es as [|endpoint rest IH]; [discriminate|].
  destruct (accepted_or_failed w (put_request p h endpoint)) as [Ha | Hf].
  - rewrite (try_endpoints_accept _ _ _ _ _ Ha). cbn [fst]. intros _.
    destruct Ha as (resp & Hr & Hs). unfold attempt_events. rewrite Hr.
    destruct (Z.ltb_spec (status_code resp) 400); [|lia].
    eexists [_; _; _; _]. reflexivity.
  - rewrite (try_endpoints_failed _ _ _ _ _ Hf). cbn [fst snd].
    intros Ht. destruct (IH Ht) as (before & ->).
    eexists. now rewrite app_assoc.
Qed.

End LoopSuccess.

(** X4: in every run, the line "Deployment successful!" is printed exactly
    when [deploy_function] returns True, and it is then the last event of
    the run: nothing is printed or sent after it. *)
Theorem success_line_iff_deployed (w : World) :
  (In (EvPrint "✅ Deployment successful!") (fst (main w))
   <-> snd (deploy_function w) = inr true)
  /\ (snd (deploy_function w) = inr true ->
      exists before,
        fst (main w) = (before ++ [EvPrint "✅ Deployment successful!"])%list).
Proof.
  destruct (main_cases w)
    as [(e & Hd & ->) | (key & code & He & Hf & [[Hd ->] | [Hd ->]])];
    cbn [fst].
  - rewrite Hd. cbn. split; [split; [intros [] | discriminate] | discriminate].
  - rewrite Hd. rewrite (deploy_function_loop _ _ _ He Hf) in *.
    split; [now rewrite success_in_loop|].
    intros _. now apply success_ends_loop.
  - rewrite Hd. split; [|discriminate]. split; [|discriminate].
    rewrite in_app_iff. intros [Hin | Hin].
    + rewrite (deploy_function_loop _ _ _ He Hf) in *.
      apply success_in_loop in Hin. congruence.
    + now apply success_not_in_health in Hin.
Qed.

Lemma success_line_iff_deployed_witness :
  snd (deploy_function world_second_accepts) = inr true
  /\ last (fst (main world_second_accepts)) (EvGet "")
     = EvPrint "✅ Deployment successful!"
  /\ ~ In (EvPrint "✅ Deployment successful!") (fst (main world_none_accepts)).
Proof.
  split; [reflexivity|].
  destruct (success_line_iff_deployed world_second_accepts) as [_ H].
  destruct (H eq_refl) as (before & ->).
  split; [apply last_last|].
  destruct (success_line_iff_deployed world_none_accepts) as [H' _].
  intros Hin. apply H' in Hin. discriminate Hin.
Defined.

(** ** Where the requests stand in the trace *)

Lemma app_split_not_in {A : Type} (x : A) (t rest before after : list A) :
  ~ In x t ->
  (t ++ rest)%list = (before ++ x :: after)%list ->
  exists mid, before = (t ++ mid)%list /\ rest = (mid ++ x :: after)%list.
Proof.
  revert before. induction t as [|y t IH]; intros before Hn Heq.
  - now exists before.
  - destruct before as [|z before]; cbn in Heq; injection Heq as -> Heq.
    + elim Hn. now left.
    + destruct (IH before) as (mid & -> & ->); [|exact Heq|now exists mid].
      intros Hin. apply Hn. now right.
Qed.

Lemma in_puts_of (r : PutRequest) (tr : list Event) :
  In (EvPut r) tr <-> In r (puts_of tr).
Proof.
  induction tr as [|[line | r' | url] tr IH]; cbn; [tauto | | | ].
  - rewrite <- IH. split; [intros [H | H]; [discriminate H | exact H] | tauto].
  - rewrite <- IH. split; intros [H | H]; auto.
    + injection H as ->. now left.
    + left. now rewrite H.
  - rewrite <- IH. split; [intros [H | H]; [discriminate H | exact H] | tauto].
Qed.

Lemma in_gets_of (u : string) (tr : list Event) :
  In (EvGet u) tr <-> In u (gets_of tr).
Proof.
  induction tr as [|[line | r' | url] tr IH]; cbn; [tauto | | | ].
  - rewrite <- IH. split; [intros [H | H]; [discriminate H | exact H] | tauto].
  - rewrite <- IH. split; [intros [H | H]; [discriminate H | exact H] | tauto].
  - rewrite <- IH. split; intros [H | H]; auto.
    + injection H as ->. now left.
    + left. now rewrite H.
Qed.

(** The events of one iteration after its PUT. *)
Lemma attempt_events_shape (w : World) (r : PutRequest) :
  attempt_events w r
  = EvPrint ("Trying " ++ put_url r ++ "...") :: EvPut r
      :: tl (tl (attempt_events w r)).
Proof. reflexivity. Qed.

Lemma attempt_tail_no_put (w : World) (r : PutRequest) :
  puts_of (tl (tl (attempt_events w r))) = [].
Proof.
  unfold attempt_events. cbn [tl].
  destruct (http_put w r) as [e | resp]; [reflexivity|].
  cbn. destruct (status_code resp <? 400); reflexivity.
Qed.

(** A PUT found in the events of one iteration followed by [rest] is the
    PUT of that iteration, or stands in [rest]. *)
Lemma attempt_split (w : World) (r0 r : PutRequest)
  (rest before after : list Event) :
  (attempt_events w r0 ++ rest)%list = (before ++ EvPut r :: after)%list ->
  (r = r0
   /\ before = [EvPrint ("Trying " ++ put_url r0 ++ "...")]
   /\ after = (tl (tl (attempt_events w r0)) ++ rest)%list)
  \/ (exists mid,
        before = (attempt_events w r0 ++ mid)%list
        /\ rest = (mid ++ EvPut r :: after)%list).
Proof.
  intros Heq. rewrite (attempt_events_shape w r0) in Heq.
  pose proof (attempt_tail_no_put w r0) as Hno.
  remember (tl (tl (attempt_events w r0))) as t eqn:Ht.
  destruct before as [|x [|y before]]; cbn [app] in Heq.
  - discriminate Heq.
  - injection Heq as Hx Hr Ha. left. now subst.
  - injection Heq as Hx Hy Heq. subst x y. right.
    apply app_split_not_in in Heq.
    + destruct Heq as (mid & Hb & Hr). exists mid.
      split; [|exact Hr]. rewrite Hb, Ht. reflexivity.
    + rewrite in_puts_of, Hno. intros [].
Qed.

Section LoopBlocks.

Variable w : World.
Variable p : pyvalue.
Variable h : list (string * string).

(** Every PUT of the loop stands right after the line that announces
    it, and right before the line that prints its exception, if it
    raised. *)
Lemma loop_put_block (es : list string) (rest before after : list Event)
  (r : PutRequest) :
  puts_of rest = [] ->
  (fst (try_endpoints p h es w) ++ rest)%list
  = (before ++ EvPut r :: after)%list ->
  (exists before',
      before = (before' ++ [EvPrint ("Trying " ++ put_url r ++ "...")])%list)
  /\ (forall e, http_put w r = inl e ->
        exists after', after = EvPrint ("❌ Error: " ++ exc_str e) :: after').
Proof.
  intros Hrest. revert before.
  induction es as [|endpoint es IH]; intros before Heq.
  - cbn in Heq. assert (Hin : In (EvPut r) rest)
      by (rewrite Heq; apply in_elt).
    apply in_puts_of in Hin. rewrite Hrest in Hin. destruct Hin.
  - assert (Hsplit : exists tail,
        (fst (try_endpoints p h (endpoint :: es) w) ++ rest)%list
        = (attempt_events w (put_request p h endpoint) ++ tail)%list
        /\ (tail = rest
            \/ tail = (fst (try_endpoints p h es w) ++ rest)%list)).
    { destruct (try_endpoints_cases w p h endpoint es) as [-> | ->];
        cbn [fst]; eexists; split; [reflexivity | now left | | now right].
      now rewrite app_assoc. }
    destruct Hsplit as (tail & Htr & Htail). rewrite Htr in Heq.
    apply attempt_split in Heq.
    destruct Heq as [(-> & -> & ->) | (mid & -> & Hmid)].
    + split; [now exists []|].
      intros e He. unfold attempt_events. rewrite He. cbn. eauto.
    + destruct Htail as [-> | ->].
      * assert (Hin : In (EvPut r) rest) by (rewrite Hmid; apply in_elt).
        apply in_puts_of in Hin. rewrite Hrest in Hin. destruct Hin.
      * destruct (IH mid Hmid) as [(before' & ->) Herr].
        split; [|exact Herr].
        eexists. now rewrite app_assoc.
Qed.

End LoopBlocks.

(** X5: wherever a PUT stands in the trace of a run, the event before it
    is the line "Trying <its URL>...", and if the PUT raised, the event
    after it is the line that prints the exception. *)
Theorem put_is_announced_and_its_error_printed
  (w : World) (before after : list Event) (req : PutRequest) :
  fst (main w) = (before ++ EvPut req :: after)%list ->
  (exists before',
      before
      = (before' ++ [EvPrint ("Trying " ++ put_url req ++ "...")])%list)
  /\ (forall e, http_put w req = inl e ->
        exists after',
          after = EvPrint ("❌ Error: " ++ exc_str e) :: after').
Proof.
  destruct (main_cases w)
    as [(e & Hd & ->) | (key & code & He & Hf & [[Hd ->] | [Hd ->]])];
    cbn [fst]; intros Heq.
  - now destruct before.
  - rewrite (deploy_function_loop _ _ _ He Hf) in Heq.
    rewrite <- (app_nil_r (fst _)) in Heq.
    now apply loop_put_block in Heq.
  - rewrite (deploy_function_loop _ _ _ He Hf) in Heq.
    apply loop_put_block in Heq; [exact Heq|].
    now rewrite puts_of_app, puts_of_health_events.
Qed.

Lemma put_is_announced_and_its_error_printed_witness :
  exists before after,
    fst (main world_none_accepts)
    = (before
       ++ EvPut (request_to "k3y" sample_code (nth 1 endpoints "")) :: after)%list
    /\ http_put world_none_accepts
         (request_to "k3y" sample_code (nth 1 endpoints "")) = inl refused
    /\ last before (EvGet "")
       = EvPrint ("Trying " ++ nth 1 endpoints "" ++ "...")
    /\ hd (EvGet "") after = EvPrint "❌ Error: connection refused".
Proof.
  exists (firstn 5 (fst (main world_none_accepts))).
  exists (skipn 6 (fst (main world_none_accepts))).
  assert (Htr : fst (main world_none_accepts)
                = (firstn 5 (fst (main world_none_accepts))
                   ++ EvPut (request_to "k3y" sample_code (nth 1 endpoints ""))
                   :: skipn 6 (fst (main world_none_accepts)))%list)
    by reflexivity.
  destruct (put_is_announced_and_its_error_printed world_none_accepts _ _ _ Htr)
    as [(before' & Hb) Herr].
  destruct (Herr refused eq_refl) as (after' & Ha).
  split; [exact Htr|]. split; [reflexivity|]. split.
  - rewrite Hb. apply last_last.
  - rewrite Ha. reflexivity.
Defined.

Lemma health_tail_no_request (w : World) :
  puts_of (tl (health_events w)) = [] /\ gets_of (tl (health_events w)) = [].
Proof.
  unfold health_events. cbn [tl].
  destruct (http_get w health_url) as [e | resp]; [now split|].
  destruct (json resp) as [e | health]; [now split|].
  destruct (PyValue.py_get health "version" (PyStr "unknown"))
    as [e | version]; [now split|].
  destruct (tenant_fallback_diagnostic health) as [e | has]; now split.
Qed.

(** X6: wherever a GET stands in the trace of a run, it is the GET to the
    health URL, [deploy_function] has returned False, what precedes it is
    the whole deploy phase followed by the two banner lines, and no
    request, PUT or GET, follows it. *)
Theorem health_get_closes_the_run
  (w : World) (before after : list Event) (url : string) :
  fst (main w) = (before ++ EvGet url :: after)%list ->
  url = health_url
  /\ snd (deploy_function w) = inr false
  /\ before = (fst (deploy_function w) ++ fallback_banner)%list
  /\ puts_of after = []
  /\ gets_of after = [].
Proof.
  intros Heq.
  assert (Hin : In url (gets_of (fst (main w))))
    by (rewrite Heq; apply in_gets_of, in_elt).
  destruct (main_cases w)
    as [(e & Hd & Hm) | (key & code & He & Hf & [[Hd Hm] | [Hd Hm]])];
    rewrite Hm in Heq, Hin; cbn [fst] in Heq, Hin.
  - destruct Hin.
  - rewrite deploy_function_no_get in Hin. destruct Hin.
  - rewrite app_assoc in Heq.
    destruct (health_tail_no_request w) as [Hp Hg].
    change (health_events w)
      with (EvGet health_url :: tl (health_events w)) in Heq.
    remember (tl (health_events w)) as t eqn:Ht.
    apply app_split_not_in in Heq.
    + destruct Heq as (mid & Hb & Heq).
      destruct mid as [|x mid]; cbn [app] in Heq.
      * injection Heq as Hu Ha. rewrite app_nil_r in Hb. now subst.
      * injection Heq as _ Heq.
        assert (Hin' : In (EvGet url) t) by (rewrite Heq; apply in_elt).
        apply in_gets_of in Hin'. rewrite Hg in Hin'. destruct Hin'.
    + rewrite in_gets_of, gets_of_app, deploy_function_no_get. intros [].
Qed.

Lemma health_get_closes_the_run_witness :
  exists before after,
    fst (main world_none_accepts)
    = (before ++ EvGet health_url :: after)%list
    /\ puts_of after = []
    /\ map put_url (puts_of before) = endpoints.
Proof.
  exists (firstn 9 (fst (main world_none_accepts))).
  exists (skipn 10 (fst (main world_none_accepts))).
  assert (Htr : fst (main world_none_accepts)
                = (firstn 9 (fst (main world_none_accepts))
                   ++ EvGet health_url
                   :: skipn 10 (fst (main world_none_accepts)))%list)
    by reflexivity.
  destruct (health_get_closes_the_run world_none_accepts _ _ _ Htr)
    as (_ & _ & Hb & Hp & _).
  split; [exact Htr|]. split; [exact Hp|]. rewrite Hb. reflexivity.
Defined.

(** ** No retries *)

Lemma NoDup_firstn {A : Type} (k : nat) (l : list A) :
  NoDup l -> NoDup (firstn k l).
Proof.
  intros Hl. revert k. induction Hl as [|x l Hx Hl IH]; intros [|k]; cbn;
    try constructor; auto.
  intros Hin. apply Hx. revert Hin. clear. revert k.
  induction l as [|y l IH]; intros [|k]; cbn; try tauto.
  intros [-> | Hin]; [now left | right; eauto].
Qed.

Lemma NoDup_endpoints : NoDup endpoints.
Proof.
  unfold endpoints. constructor; [|constructor; [intros [] | constructor]].
  intros [Heq | []]. discriminate Heq.
Qed.

(** X7: in every run each endpoint receives at most one PUT: the URLs of
    the PUTs are pairwise distinct, and there are at most as many PUTs as
    endpoints. *)
Theorem no_endpoint_is_tried_twice (w : World) :
  NoDup (map put_url (puts_of (fst (main w))))
  /\ (length (puts_of (fst (main w))) <= length endpoints)%nat.
Proof.
  rewrite main_puts.
  destruct (deploy_function_cases w)
    as [(e & ->) | (key & code & _ & _ & ->)].
  - cbn. split; [constructor | lia].
  - destruct (try_endpoints_prefix w (payload code) (headers key) endpoints)
      as [k ->].
    rewrite map_map, length_map. cbn [put_url put_request]. rewrite map_id.
    split; [apply NoDup_firstn, NoDup_endpoints|].
    rewrite length_firstn. apply Nat.le_min_r.
Qed.

(** ** Edge cases of the health check *)

(** X8: when the health URL answers with JSON that is not an object, the
    [get] on it raises, no version line is printed, and the health check
    prints the failure line with the AttributeError and returns. *)
Theorem non_object_body_is_reported (w : World) (resp : Response)
  (health : pyvalue) :
  http_get w health_url = inr resp ->
  json resp = inr health ->
  (forall items, health <> PyDict items) ->
  health_check w
  = ([EvGet health_url;
      EvPrint ("Health check failed: '" ++ PyValue.type_name health
               ++ "' object has no attribute 'get'")],
     inr tt).
Proof.
  intros Hg Hj Hn. rewrite health_check_eq. unfold health_events.
  rewrite Hg, Hj.
  destruct health; try reflexivity. now elim (Hn items).
Qed.

Lemma non_object_body_is_reported_witness :
  http_get world_health_list health_url
  = inr (json_response "[1, 2]" (PyList [PyInt 1; PyInt 2]))
  /\ prints_of (fst (health_check world_health_list))
     = ["Health check failed: 'list' object has no attribute 'get'"].
Proof.
  split; [reflexivity|].
  rewrite (non_object_body_is_reported world_health_list _
             (PyList [PyInt 1; PyInt 2]) eq_refl eq_refl);
    [reflexivity | discriminate].
Defined.





(** ** What the diagnostic does not match *)

Lemma length_app_string (s1 s2 : string) :
  String.length (s1 ++ s2) = (String.length s1 + String.length s2)%nat.
Proof. induction s1 as [|c s1 IH]; cbn; [reflexivity | now rewrite IH]. Qed.

Lemma occurs_length (sub s : string) :
  occurs sub s -> (String.length sub <= String.length s)%nat.
Proof.
  intros (pre & post & ->). rewrite !length_app_string. lia.
Qed.

Lemma length_lower (s : string) :
  String.length (PyText.lower s) = String.length s.
Proof. induction s as [|c s IH]; cbn; [reflexivity | now rewrite IH]. Qed.

Lemma one_char_never_mentions (c : ascii) :
  mentions_tenant_fallback (PyStr (String c EmptyString)) = false.
Proof.
  destruct (mentions_tenant_fallback (PyStr (String c EmptyString))) eqn:Hm;
    [|reflexivity].
  apply mentions_tenant_fallback_iff in Hm.
  destruct Hm as [Hm | Hm]; apply occurs_length in Hm;
    rewrite length_lower in Hm; cbn in Hm; lia.
Qed.

Lemma chars_never_mention (s : string) :
  has_fallback (PyValue.chars s) = false.
Proof.
  induction s as [|c s IH]; [reflexivity|].
  unfold has_fallback in *. cbn [PyValue.chars existsb].
  now rewrite one_char_never_mentions.
Qed.

(** X11: a [features] that is a string is run through character by
    character, so the diagnostic is False whatever the string says, be it
    "tenant-fallback". *)
Theorem text_features_never_match (items : list (string * pyvalue))
  (s : string) :
  PyValue.dict_lookup items "features" = Some (PyStr s) ->
  tenant_fallback_diagnostic (PyDict items) = inr false.
Proof.
  intros Hl. unfold tenant_fallback_diagnostic, PyValue.py_get.
  rewrite Hl. cbn [PyValue.py_iter]. f_equal. apply chars_never_mention.
Qed.

Lemma text_features_never_match_witness :
  PyValue.dict_lookup [("features", PyStr "tenant-fallback")] "features"
  = Some (PyStr "tenant-fallback")
  /\ last (prints_of (fst (health_check world_health_text_features))) ""
     = "Has tenant fallback logic: False".
Proof.
  split; [reflexivity|].
  pose proof (text_features_never_match
                [("features", PyStr "tenant-fallback")] "tenant-fallback"
                eq_refl) as H.
  rewrite health_check_eq. unfold health_events.
  change (http_get world_health_text_features health_url)
    with (@inr PyExc _ (json_response
            ("{" ++ quoted "features" ++ ": " ++ quoted "tenant-fallback" ++ "}")
            (PyDict [("features", PyStr "tenant-fallback")]))).
  cbn [json json_response PyValue.py_get]. rewrite H. reflexivity.
Defined.

Lemma occurs_first_char (a : ascii) (sub s : string) :
  occurs (String a sub) s -> has_char a s.
Proof.
  intros (pre & post & ->).
  induction pre as [|c pre IH]; cbn; [now left | now right].
Qed.

Lemma has_char_lower (a : ascii) (s : string) :
  has_char a (PyText.lower s) ->
  exists c, has_char c s /\ PyText.lower_ascii c = a.
Proof.
  induction s as [|c s IH]; cbn; [intros []|].
  intros [Ha | Ha].
  - exists c. split; [now left | exact Ha].
  - destruct (IH Ha) as (c' & Hc & Hl). exists c'. split; [now right | exact Hl].
Qed.

Lemma digits_below_letters (d : Decimal.uint) (c : ascii) :
  has_char c (NilEmpty.string_of_uint d) -> (nat_of_ascii c < 65)%nat.
Proof.
  induction d; cbn [NilEmpty.string_of_uint has_char];
    try (intros [<- | H]; [apply Nat.ltb_lt; reflexivity | auto]).
  intros [].
Qed.

Lemma str_int_below_letters (n : Z) (c : ascii) :
  has_char c (PyText.str_int n) -> (nat_of_ascii c < 65)%nat.
Proof.
  assert (Hu : forall d, has_char c (NilZero.string_of_uint d) ->
                         (nat_of_ascii c < 65)%nat).
  { intros d. destruct d; try apply digits_below_letters.
    cbn. intros [<- | []]. apply Nat.ltb_lt. reflexivity. }
  unfold PyText.str_int. destruct (Z.to_int n) as [d | d];
    cbn [NilZero.string_of_int has_char]; [apply Hu|].
  intros [<- | H]; [apply Nat.ltb_lt; reflexivity | exact (Hu d H)].
Qed.

Lemma lower_ascii_below_letters (c : ascii) :
  (nat_of_ascii c < 65)%nat -> PyText.lower_ascii c = c.
Proof.
  intros Hc. unfold PyText.lower_ascii.
  destruct (Nat.leb_spec 65 (nat_of_ascii c)); [lia | reflexivity].
Qed.

Lemma int_never_mentions (n : Z) :
  mentions_tenant_fallback (PyInt n) = false.
Proof.
  destruct (mentions_tenant_fallback (PyInt n)) eqn:Hm; [|reflexivity].
  apply mentions_tenant_fallback_iff in Hm.
  cbn [PyValue.py_str PyValue.py_repr] in Hm.
  assert (Hno : forall a, has_char a (PyText.lower (PyText.str_int n)) ->
                          (nat_of_ascii a < 65)%nat).
  { intros a Ha. apply has_char_lower in Ha. destruct Ha as (c & Hc & <-).
    apply str_int_below_letters in Hc.
    now rewrite (lower_ascii_below_letters _ Hc). }
  destruct Hm as [Hm | Hm]; apply occurs_first_char, Hno in Hm;
    apply Nat.ltb_lt in Hm; discriminate Hm.
Qed.

(** X12: a [features] list that holds only nulls, booleans and integers
    gives the diagnostic False. *)
Theorem plain_scalars_never_match (fs : list pyvalue) :
  (forall f, In f fs -> plain_scalar f = true) ->
  has_fallback fs = false.
Proof.
  intros Hall. unfold has_fallback.
  induction fs as [|f fs IH]; [reflexivity|].
  cbn [existsb]. rewrite IH by (intros; apply Hall; now right).
  rewrite orb_false_r.
  assert (Hf : plain_scalar f = true) by (apply Hall; now left).
  destruct f as [| [|] | n | | | |]; try discriminate Hf;
    try reflexivity. apply int_never_mentions.
Qed.

Lemma plain_scalars_never_match_witness :
  (forall f, In f [PyNone; PyBool true; PyInt (-10)] -> plain_scalar f = true)
  /\ tenant_fallback_diagnostic
       (PyDict [("features", PyList [PyNone; PyBool true; PyInt (-10)])])
     = inr false.
Proof.
  assert (H : forall f, In f [PyNone; PyBool true; PyInt (-10)] ->
                        plain_scalar f = true).
  { intros f [<- | [<- | [<- | []]]]; reflexivity. }
  split; [exact H|].
  unfold tenant_fallback_diagnostic. cbn [PyValue.py_get PyValue.dict_lookup
    String.eqb Ascii.eqb Bool.eqb PyValue.py_iter].
  now rewrite (plain_scalars_never_match _ H).
Defined.

(** ** Letter case *)

Lemma lower_app (s1 s2 : string) :
  PyText.lower (s1 ++ s2) = PyText.lower s1 ++ PyText.lower s2.
Proof. induction s1 as [|c s1 IH]; cbn; [reflexivity | now rewrite IH]. Qed.

(** X13: the match ignores letter case: a [features] list with a string
    element in which "tenant" or "fallback" stands in any mix of upper and
    lower case gives the diagnostic True. *)
Theorem any_case_matches (fs : list pyvalue) (pre word post : string) :
  In (PyStr (pre ++ word ++ post)) fs ->
  PyText.lower word = "tenant" \/ PyText.lower word = "fallback" ->
  has_fallback fs = true.
Proof.
  intros Hin Hw. apply has_fallback_iff.
  exists (PyStr (pre ++ word ++ post)). split; [exact Hin|].
  cbn [PyValue.py_str]. rewrite !lower_app.
  destruct Hw as [-> | ->]; [left | right];
    now exists (PyText.lower pre), (PyText.lower post).
Qed.

Lemma any_case_matches_witness :
  PyText.lower "FallBack" = "fallback"
  /\ has_fallback [PyStr "color"; PyStr "no-FallBack-yet"] = true.
Proof.
  split; [reflexivity|].
  apply (any_case_matches _ "no-" "FallBack" "-yet");
    [right; left; reflexivity | right; reflexivity].
Defined.

(** ** Where the failure banner stands *)

Lemma banner_not_in_attempt (w : World) (r : PutRequest) :
  ~ In (EvPrint "❌ All deployment attempts failed") (attempt_events w r).
Proof.
  unfold attempt_events.
  intros [Hin | [Hin | Hin]]; [discriminate Hin | discriminate Hin |].
  destruct (http_put w r) as [e | resp].
  - destruct Hin as [Hin | []]. discriminate Hin.
  - destruct Hin as [Hin | [Hin | Hin]];
      [discriminate Hin | discriminate Hin |].
    destruct (status_code resp <? 400); [|destruct Hin].
    destruct Hin as [Hin | []]. discriminate Hin.
Qed.

Lemma banner_not_in_loop (w : World) (p : pyvalue)
  (h : list (string * string)) (es : list string) :
  ~ In (EvPrint "❌ All deployment attempts failed")
       (fst (try_endpoints p h es w)).
Proof.
  induction es as [|endpoint rest IH]; [intros []|].
  destruct (try_endpoints_cases w p h endpoint rest) as [-> | ->];
    cbn [fst]; rewrite ?in_app_iff;
    pose proof (banner_not_in_attempt w (put_request p h endpoint)); tauto.
Qed.

(** X14: in every run, the line "All deployment attempts failed" is
    printed exactly when [deploy_function] returns False. *)
Theorem failure_banner_iff_not_deployed (w : World) :
  In (EvPrint "❌ All deployment attempts failed") (fst (main w))
  <-> snd (deploy_function w) = inr false.
Proof.
  destruct (main_cases w)
    as [(e & Hd & ->) | (key & code & He & Hf & [[Hd ->] | [Hd ->]])];
    cbn [fst]; rewrite Hd.
  - cbn. split; [intros [] | discriminate].
  - split; [|discriminate]. intros Hin.
    rewrite (deploy_function_loop _ _ _ He Hf) in Hin.
    now apply banner_not_in_loop in Hin.
  - split; [reflexivity|]. intros _.
    apply in_or_app. right. now left.
Qed.

Lemma failure_banner_iff_not_deployed_witness :
  In (EvPrint "❌ All deployment attempts failed")
     (fst (main world_health_down))
  /\ ~ In (EvPrint "❌ All deployment attempts failed")
         (fst (main world_first_raises)).
Proof.
  split.
  - apply (failure_banner_iff_not_deployed world_health_down). reflexivity.
  - intros Hin.
    apply (failure_banner_iff_not_deployed world_first_raises) in Hin.
    discriminate Hin.
Defined.
